(** * The worker service example: [services/worker/main.py]

    A shallow embedding of the three functions of the worker example
    ([process_data], [validate_data], [store_data]) and of its driver
    block, over a small model of the Python runtime: objects live in a
    heap and are passed by reference, [print] appends a line to the
    standard output, and a computation either returns a value or raises
    an exception. *)

From stdpp Require Import gmap strings list fin_maps.

(** ** The Python runtime, as far as the program uses it *)

Module Py.

(** Exceptions.  [TypeError], [ValueError] and [KeyError] derive from
    [Exception]; [KeyboardInterrupt], [SystemExit] and [GeneratorExit]
    derive from [BaseException] only, so a handler [except Exception]
    lets them through. *)
Inductive exn_class : Type :=
| TypeError | ValueError | KeyError
| KeyboardInterrupt | SystemExit | GeneratorExit.

(** An exception object: one built from a message, whose text is that
    message, or one whose [__str__] raises in its turn. *)
Inductive exn : Type :=
| Exn (cls : exn_class) (msg : string)
| ExnNoStr (cls : exn_class) (inner : exn).

Definition exn_cls (e : exn) : exn_class :=
  match e with
  | Exn cls _ | ExnNoStr cls _ => cls
  end.

Definition is_Exception (c : exn_class) : bool :=
  match c with
  | TypeError | ValueError | KeyError => true
  | KeyboardInterrupt | SystemExit | GeneratorExit => false
  end.

(** The result of running a piece of code: a value, an exception on its
    way up, or [Dangling] when the code was handed a reference to no
    object (which no Python program can do; the theorems rule it out by
    asking that the argument is allocated). *)
Inductive outcome (A : Type) : Type :=
| Ok (a : A)
| Raise (e : exn)
| Dangling.
Arguments Ok {A} a.
Arguments Raise {A} e.
Arguments Dangling {A}.

(** [str(e)] *)
Definition exn_str (e : exn) : outcome string :=
  match e with
  | Exn _ msg => Ok msg
  | ExnNoStr _ inner => Raise inner
  end.

(** What a method [__contains__] does on a key: it answers, or raises. *)
Inductive answer : Type :=
| Says (b : bool)
| Throws (e : exn).

(** Objects.  The program is annotated for [Dict[str, any]], but Python
    does not enforce annotations, so a caller can pass any object.  The
    universe below has the dictionary with string keys, the built-in
    types that arise as its values or as stray arguments, and instances
    of classes of the caller's own (a subclass of [dict], say) that
    define [__contains__]: such a method is taken as a function of the
    key, since what it answers or raises is all the program sees of it.
    Objects stored inside a container are kept by value: the program
    never reaches into them. *)
#[warnings="-register-all"] Inductive value : Type :=
| VNone
| VBool (b : bool)
| VInt (n : Z)
| VStr (s : string)
| VBytes (bs : string)
| VList (xs : list value)
| VDict (d : gmap string value)
| VInstance (cls : string) (contains_method : string → answer).

(** [type(v).__name__] *)
Definition type_name (v : value) : string :=
  match v with
  | VNone => "NoneType"
  | VBool _ => "bool"
  | VInt _ => "int"
  | VStr _ => "str"
  | VBytes _ => "bytes"
  | VList _ => "list"
  | VDict _ => "dict"
  | VInstance cls _ => cls
  end.

(** References into the heap, and the state of the world: the heap and
    the lines printed so far. *)
Definition loc : Type := nat.

Record world : Type := World { heap : gmap nat value; stdout : list string }.

Definition M (A : Type) : Type := world → outcome A * world.

#[export] Instance M_ret : MRet M := λ A a w, (Ok a, w).

#[export] Instance M_bind : MBind M := λ A B k m w,
  match m w with
  | (Ok a, w') => k a w'
  | (Raise e, w') => (Raise e, w')
  | (Dangling, w') => (Dangling, w')
  end.

(** [try: body  except Exception as e: handler e] *)
Definition try_except {A} (body : M A) (handler : exn → M A) : M A := λ w,
  match body w with
  | (Raise e, w') =>
      if is_Exception (exn_cls e) then handler e w' else (Raise e, w')
  | r => r
  end.

(** The text of [e] where an f-string holds [{e}]: [str(e)] *)
Definition format_exn (e : exn) : M string := λ w, (exn_str e, w).

(** [print(s)] *)
Definition print (s : string) : M unit := λ w,
  (Ok tt, {| heap := heap w; stdout := stdout w ++ [s] |}).

(** A display (dict or list literal) creates a new object. *)
Definition alloc (v : value) : M loc := λ w,
  let l := fresh (dom (heap w)) in
  (Ok l, {| heap := <[l := v]> (heap w); stdout := stdout w |}).

(** [needle in hay] on two strings: substring test *)
Fixpoint str_contains (needle hay : string) : bool :=
  String.prefix needle hay ||
  match hay with
  | EmptyString => false
  | String _ hay' => str_contains needle hay'
  end.

(** [k == v] where [k] is a string: equal strings, and nothing else *)
Definition str_eq (k : string) (v : value) : bool :=
  match v with
  | VStr s => bool_decide (k = s)
  | _ => false
  end.

(** [k in v], for a string [k]: key membership on a dictionary, element
    membership on a list, substring on a string, the answer of
    [__contains__] on an instance that defines it, and a [TypeError] on
    an object that has no membership test or, like [bytes], none for a
    string.  The texts of the errors are CPython's; the theorems below
    do not depend on their wording. *)
Definition contains_value (k : string) (v : value) : outcome bool :=
  match v with
  | VDict d => Ok (bool_decide (is_Some (d !! k)))
  | VList xs => Ok (existsb (str_eq k) xs)
  | VStr s => Ok (str_contains k s)
  | VInstance _ contains_method =>
      match contains_method k with
      | Says b => Ok b
      | Throws e => Raise e
      end
  | VBytes _ =>
      Raise (Exn TypeError "a bytes-like object is required, not 'str'")
  | VNone | VBool _ | VInt _ =>
      Raise (Exn TypeError
               ("argument of type '" +:+ type_name v +:+ "' is not iterable"))
  end.

Definition contains (k : string) (data : loc) : M bool := λ w,
  match heap w !! data with
  | Some v => (contains_value k v, w)
  | None => (Dangling, w)
  end.

(** [all(g)] over a generator [g]: the tests run one at a time and the
    first false one ends the iteration. *)
Fixpoint all (tests : list (M bool)) : M bool :=
  match tests with
  | [] => mret true
  | t :: rest => t ≫= λ b : bool, if b then all rest else mret false
  end.

End Py.

Import Py.

(** ** The program *)

Definition required_fields : list string := ["id"; "timestamp"; "payload"].

(** [return all(field in data for field in required_fields)] *)
Definition validate_data (data : loc) : M bool :=
  all ((λ field, contains field data) <$> required_fields).

(** The body is [pass]: the function falls off its end and returns [None]. *)
Definition store_data (data : loc) : M value := mret VNone.

(** The two halves of the [try] statement of [process_data]: the guarded
    block and the handler of [except Exception as e]. *)
Definition process_data_try (data : loc) : M bool :=
  validate_data data ≫= λ result : bool,
  if result then store_data data;; mret true
  else mret false.

Definition process_data_except (e : exn) : M bool :=
  format_exn e ≫= λ text : string,
  print ("Error processing data: " +:+ text);; mret false.

Definition process_data (data : loc) : M bool :=
  try_except (process_data_try data) process_data_except.

(** The driver block. *)
Definition sample_fields : gmap string value :=
  <["payload" := VDict {["value" := VInt 42]}]>
    (<["timestamp" := VStr "2025-01-15T10:00:00Z"]>
       {["id" := VStr "123"]}).

Definition sample_data : value := VDict sample_fields.

Definition main : M unit :=
  data ← alloc sample_data;
  process_data data ≫= λ success : bool,
  print ("Processing " +:+ (if success then "succeeded" else "failed")).

(** The module body: the driver runs only under [__name__ == '__main__']. *)
Definition script (name : string) : M unit :=
  if bool_decide (name = "__main__") then main else mret tt.

(** ** Running the primitives *)

(** The world after a line has been printed. *)
Definition printed (w : world) (line : string) : world :=
  {| heap := heap w; stdout := stdout w ++ [line] |}.

(** The keys of [ks] tested in turn against one object, as [all] does it. *)
Fixpoint all_in (ks : list string) (v : value) : outcome bool :=
  match ks with
  | [] => Ok true
  | k :: ks' =>
      match contains_value k v with
      | Ok true => all_in ks' v
      | r => r
      end
  end.

(** A world to run the functions in: the sample record, a record with
    the same keys and other values, a record that lacks two keys, and an
    object that is no container. *)
Definition example_heap : gmap nat value :=
  {[ 0 := sample_data;
     1 := VDict {[ "id" := VNone; "timestamp" := VInt 0;
                   "payload" := VList [] ]};
     2 := VDict {[ "id" := VInt 7 ]};
     3 := VNone ]}.

Definition example_world : world := World example_heap [].

(** Two families of built-in arguments, by type: [None], a [bool], an
    [int] or a [bytes] object; and a [dict], a [list] or a [str]. *)
Definition is_none_bool_int_bytes (v : value) : Prop :=
  v = VNone ∨ (∃ b, v = VBool b) ∨ (∃ n, v = VInt n) ∨ (∃ bs, v = VBytes bs).

Definition is_dict_list_str (v : value) : Prop :=
  (∃ d, v = VDict d) ∨ (∃ xs, v = VList xs) ∨ (∃ s, v = VStr s).

(** [needle] occurs somewhere in [hay]. *)
Definition occurs_in (needle hay : string) : Prop :=
  ∃ before after, hay = before +:+ needle +:+ after.

(** The world right after the driver has built its record. *)
Definition with_sample (w : world) : world :=
  {| heap := <[fresh (dom (heap w)) := sample_data]> (heap w);
     stdout := stdout w |}.

(** A second world, of arguments that are no dictionaries, and one
    earlier line of output. *)
Definition stray_heap : gmap nat value :=
  {[ 0 := VList [VStr "payload"; VInt 1; VStr "id"; VStr "timestamp"];
     1 := VStr "id,timestamp,payload";
     2 := VBool true;
     3 := VInt 5;
     4 := VDict ∅;
     5 := VDict (<["note" := VStr "late"]> sample_fields);
     6 := VDict (delete "timestamp" sample_fields) ]}.

Definition stray_world : world := World stray_heap ["earlier line"].

(** A third world: instances whose [__contains__] raises (an interrupt,
    a [ValueError], a [KeyError] whose [__str__] raises too, and one
    that answers for [id] and then leaves the interpreter), and a
    [bytes] object. *)
Definition hostile_heap : gmap nat value :=
  {[ 0 := VInstance "Interrupted" (λ _, Throws (Exn KeyboardInterrupt ""));
     1 := VInstance "Strict" (λ _, Throws (Exn ValueError "unsupported record"));
     2 := VInstance "Mute"
            (λ _, Throws (ExnNoStr KeyError (Exn ValueError "no text")));
     3 := VInstance "Leaving"
            (λ k, if bool_decide (k = "id") then Says true
                  else Throws (Exn SystemExit "0"));
     4 := VBytes "id timestamp payload" ]}.

Definition hostile_world : world := World hostile_heap [].

Section Primitives.
Implicit Types (w : world) (l : loc) (v : value) (k : string).

Lemma contains_alloc k l w v :
  heap w !! l = Some v → contains k l w = (contains_value k v, w).
Proof. unfold contains. by intros ->. Qed.

Lemma contains_world k l w : (contains k l w).2 = w.
Proof. unfold contains. by destruct (heap w !! l). Qed.

Lemma contains_value_allocated k v : contains_value k v ≠ Dangling.
Proof.
  destruct v as [| | | | | | |cls method]; try done.
  simpl. by destruct (method k).
Qed.



Lemma all_step (t : M bool) rest w :
  all (t :: rest) w =
    match t w with
    | (Ok true, w') => all rest w'
    | r => r
    end.
Proof.
  simpl. unfold mbind, M_bind.
  by destruct (t w) as [[[]| |] ?].
Qed.

Lemma all_contains ks l w v :
  heap w !! l = Some v →
  all ((λ field, contains field l) <$> ks) w = (all_in ks v, w).
Proof.
  intros Hl. induction ks as [|k ks IH]; [done|].
  rewrite fmap_cons, all_step, (contains_alloc _ _ _ _ Hl). simpl.
  by destruct (contains_value k v) as [[]| |].
Qed.

Lemma all_world (tests : list (M bool)) w :
  Forall (λ t : M bool, ∀ w', (t w').2 = w') tests → (all tests w).2 = w.
Proof.
  induction 1 as [|t rest Ht _ IH]; [done|].
  rewrite all_step. specialize (Ht w).
  destruct (t w) as [[[]| |] w']; simpl in *; by subst.
Qed.

Lemma all_in_allocated ks v : all_in ks v ≠ Dangling.
Proof.
  induction ks as [|k ks IH]; simpl; [done|].
  destruct (contains_value k v) as [[]| |] eqn:Hk; try done.
  by apply contains_value_allocated in Hk.
Qed.

(** On a dictionary the tests are key lookups and none can raise. *)
Lemma all_in_dict ks (d : gmap string value) :
  all_in ks (VDict d) = Ok (forallb (λ k, bool_decide (k ∈ dom d)) ks).
Proof.
  induction ks as [|k ks IH]; simpl; [done|].
  rewrite IH. rewrite (bool_decide_ext _ _ (elem_of_dom d k)).
  by destruct (bool_decide (is_Some (d !! k))).
Qed.
End Primitives.

(** ** The three functions on an allocated argument *)

Section Functions.
Implicit Types (w : world) (l : loc) (v : value) (d : gmap string value).

Lemma validate_data_alloc l w v :
  heap w !! l = Some v →
  validate_data l w = (all_in required_fields v, w).
Proof. apply all_contains. Qed.

Lemma validate_data_world l w : (validate_data l w).2 = w.
Proof.
  apply all_world, Forall_fmap, Forall_forall.
  intros k _ w'. apply contains_world.
Qed.

(** The guarded block gives what the validation gives: the storage
    step adds no outcome of its own. *)
Lemma process_data_try_validate l w :
  process_data_try l w = validate_data l w.
Proof.
  unfold process_data_try, mbind, M_bind.
  by destruct (validate_data l w) as [[[]| |] w'].
Qed.

(** The handler: one line and [False], unless the text of the exception
    cannot be had, in which case nothing is printed. *)
Lemma process_data_except_run e w :
  process_data_except e w =
    match exn_str e with
    | Ok text => (Ok false, printed w ("Error processing data: " +:+ text))
    | Raise e' => (Raise e', w)
    | Dangling => (Dangling, w)
    end.
Proof.
  unfold process_data_except, mbind, M_bind, format_exn.
  by destruct (exn_str e).
Qed.

Lemma process_data_alloc l w v :
  heap w !! l = Some v →
  process_data l w =
    match all_in required_fields v with
    | Raise e =>
        if is_Exception (exn_cls e) then process_data_except e w
        else (Raise e, w)
    | r => (r, w)
    end.
Proof.
  intros Hl. unfold process_data, try_except.
  rewrite process_data_try_validate, (validate_data_alloc _ _ _ Hl).
  by destruct (all_in required_fields v) as [b|e|].
Qed.

(** What [process_data] makes of an exception of the guarded block
    depends on the exception alone, and never touches the heap. *)
Lemma process_data_except_outcome e w1 w2 :
  (process_data_except e w1).1 = (process_data_except e w2).1.
Proof. rewrite !process_data_except_run. by destruct (exn_str e). Qed.

Lemma process_data_except_heap e w : heap (process_data_except e w).2 = heap w.
Proof. rewrite process_data_except_run. by destruct (exn_str e). Qed.

Lemma required_fields_dict d :
  all_in required_fields (VDict d) =
    Ok (bool_decide ("id" ∈ dom d ∧ "timestamp" ∈ dom d ∧ "payload" ∈ dom d)).
Proof.
  rewrite all_in_dict. simpl.
  by rewrite andb_true_r, !bool_decide_and.
Qed.

Lemma process_data_dangling l w :
  heap w !! l = None → process_data l w = (Dangling, w).
Proof.
  intros Hl. unfold process_data, try_except.
  rewrite process_data_try_validate.
  unfold validate_data, required_fields. rewrite fmap_cons, all_step.
  unfold contains. by rewrite Hl.
Qed.

(** The outcome of [process_data] is read off the heap alone. *)
Lemma process_data_heap_only l w1 w2 :
  heap w1 !! l = heap w2 !! l → (process_data l w1).1 = (process_data l w2).1.
Proof.
  intros Hh. destruct (heap w1 !! l) as [v|] eqn:H1; symmetry in Hh.
  - rewrite (process_data_alloc _ _ _ H1), (process_data_alloc _ _ _ Hh).
    destruct (all_in required_fields v) as [b|e|]; [done| |done].
    destruct (is_Exception (exn_cls e)); [|done].
    apply process_data_except_outcome.
  - by rewrite (process_data_dangling _ _ H1), (process_data_dangling _ _ Hh).
Qed.

Lemma process_data_heap l w : heap (process_data l w).2 = heap w.
Proof.
  destruct (heap w !! l) as [v|] eqn:Hl.
  - rewrite (process_data_alloc _ _ _ Hl).
    destruct (all_in required_fields v) as [b|e|]; [done| |done].
    destruct (is_Exception (exn_cls e)); [|done].
    apply process_data_except_heap.
  - by rewrite (process_data_dangling _ _ Hl).
Qed.

(** Equal objects give equal outcomes, wherever they live. *)
Lemma process_data_object l1 l2 w1 w2 v :
  heap w1 !! l1 = Some v → heap w2 !! l2 = Some v →
  (process_data l1 w1).1 = (process_data l2 w2).1.
Proof.
  intros H1 H2.
  rewrite (process_data_alloc _ _ _ H1), (process_data_alloc _ _ _ H2).
  destruct (all_in required_fields v) as [b|e|]; [done| |done].
  destruct (is_Exception (exn_cls e)); [|done].
  apply process_data_except_outcome.
Qed.
End Functions.

(** ** Some runs *)

Example run_sample :
  process_data 0 example_world = (Ok true, example_world).
Proof. reflexivity. Qed.

Example run_missing_keys :
  process_data 2 example_world = (Ok false, example_world).
Proof. reflexivity. Qed.

Example run_none_validate :
  validate_data 3 example_world =
    (Raise (Exn TypeError "argument of type 'NoneType' is not iterable"),
     example_world).
Proof. reflexivity. Qed.

(** A string or a list that happens to contain the three names passes
    the test as well: [in] is then a substring or an element test. *)
Example run_string :
  (validate_data 0 (World {[ 0 := VStr "id, timestamp, payload" ]} [])).1
  = Ok true.
Proof. reflexivity. Qed.

Example run_list :
  (validate_data 0
     (World {[ 0 := VList [VStr "payload"; VInt 1; VStr "id"] ]} [])).1
  = Ok false.
Proof. reflexivity. Qed.

Example run_import :
  script "worker.main" example_world = (Ok tt, example_world).
Proof. reflexivity. Qed.

(** ** Validation *)

(** C1: on every mapping, [validate_data] returns a boolean, and that
    boolean is [True] exactly when the three keys [id], [timestamp] and
    [payload] are all present; the values stored under the keys and any
    further keys play no part. *)
Theorem validate_data_required_keys (w : world) (l : loc) (d : gmap string value) :
  heap w !! l = Some (VDict d) →
  ∃ b : bool,
    validate_data l w = (Ok b, w) ∧
    (b = true ↔ "id" ∈ dom d ∧ "timestamp" ∈ dom d ∧ "payload" ∈ dom d).
Proof.
  intros Hl. eexists. split.
  - by rewrite (validate_data_alloc _ _ _ Hl), required_fields_dict.
  - apply bool_decide_eq_true.
Qed.

Lemma validate_data_required_keys_witness :
  heap example_world !! 0 = Some (VDict sample_fields) ∧
  ∃ b : bool,
    validate_data 0 example_world = (Ok b, example_world) ∧
    (b = true ↔
       "id" ∈ dom sample_fields ∧ "timestamp" ∈ dom sample_fields ∧
       "payload" ∈ dom sample_fields).
Proof.
  split; [reflexivity|].
  apply (validate_data_required_keys example_world 0 sample_fields).
  reflexivity.
Defined.

(** C6: the result of [validate_data] is a function of the key set: two
    mappings with the same keys, whatever their values and wherever they
    live, get the same answer. *)
Theorem validate_data_keys_only (w1 w2 : world) (l1 l2 : loc)
    (d1 d2 : gmap string value) :
  heap w1 !! l1 = Some (VDict d1) →
  heap w2 !! l2 = Some (VDict d2) →
  dom d1 = dom d2 →
  (validate_data l1 w1).1 = (validate_data l2 w2).1.
Proof.
  intros H1 H2 Hdom.
  rewrite (validate_data_alloc _ _ _ H1), (validate_data_alloc _ _ _ H2).
  by rewrite !required_fields_dict, Hdom.
Qed.

Lemma validate_data_keys_only_witness :
  (validate_data 0 example_world).1 = (validate_data 1 example_world).1.
Proof.
  apply (validate_data_keys_only example_world example_world 0 1 sample_fields
           {[ "id" := VNone; "timestamp" := VInt 0; "payload" := VList [] ]});
    [reflexivity | reflexivity | by vm_compute].
Defined.

(** ** Storage *)

(** C7: [store_data] is a stub: on every argument it returns [None],
    raises nothing, and leaves the heap and the standard output as they
    were. *)
Theorem store_data_stub (l : loc) (w : world) : store_data l w = (Ok VNone, w).
Proof. reflexivity. Qed.

(** ** Processing *)

(** C2: a record that has the three required keys is accepted
    ([process_data] returns [True]), and a record that lacks one of them
    is rejected ([process_data] returns [False]); neither run prints. *)
Theorem process_data_accepts_rejects (w : world) (l : loc) (d : gmap string value) :
  heap w !! l = Some (VDict d) →
  ("id" ∈ dom d ∧ "timestamp" ∈ dom d ∧ "payload" ∈ dom d →
   process_data l w = (Ok true, w)) ∧
  ("id" ∉ dom d ∨ "timestamp" ∉ dom d ∨ "payload" ∉ dom d →
   process_data l w = (Ok false, w)).
Proof.
  intros Hl. rewrite (process_data_alloc _ _ _ Hl), required_fields_dict.
  split; intros Hk.
  - by rewrite bool_decide_eq_true_2.
  - rewrite bool_decide_eq_false_2; [done|]. tauto.
Qed.

Lemma process_data_accepts_rejects_witness :
  process_data 0 example_world = (Ok true, example_world) ∧
  process_data 2 example_world = (Ok false, example_world).
Proof.
  split.
  - apply (process_data_accepts_rejects example_world 0 sample_fields);
      [reflexivity|].
    repeat split; apply elem_of_dom; eexists; reflexivity.
  - apply (process_data_accepts_rejects example_world 2 {[ "id" := VInt 7 ]});
      [reflexivity|].
    right; left. apply not_elem_of_dom. reflexivity.
Defined.




(** C4: on every mapping, [process_data] does exactly what
    [validate_data] does: same result, same world.  The guarded block
    raises nothing there, so the handler is never entered. *)
Theorem process_data_is_validate_data (w : world) (l : loc) (d : gmap string value) :
  heap w !! l = Some (VDict d) →
  process_data l w = validate_data l w ∧
  ∀ (e : exn) (w' : world), process_data_try l w ≠ (Raise e, w').
Proof.
  intros Hl. split.
  - by rewrite (process_data_alloc _ _ _ Hl), (validate_data_alloc _ _ _ Hl),
      required_fields_dict.
  - intros e w'.
    by rewrite process_data_try_validate, (validate_data_alloc _ _ _ Hl),
      required_fields_dict.
Qed.

Lemma process_data_is_validate_data_witness :
  process_data 2 example_world = validate_data 2 example_world ∧
  ∀ (e : exn) (w' : world), process_data_try 2 example_world ≠ (Raise e, w').
Proof.
  apply (process_data_is_validate_data example_world 2 {[ "id" := VInt 7 ]}).
  reflexivity.
Defined.

(** C8: [process_data] is deterministic and keeps no state between
    calls: its result is decided by the object it is given, so two runs
    on equal objects agree, in whatever worlds they happen, and a second
    run right after the first repeats its result. *)
Theorem process_data_deterministic (w1 w2 : world) (l1 l2 : loc) (v : value) :
  heap w1 !! l1 = Some v →
  heap w2 !! l2 = Some v →
  (process_data l1 w1).1 = (process_data l2 w2).1 ∧
  (process_data l1 (process_data l1 w1).2).1 = (process_data l1 w1).1.
Proof.
  intros H1 H2. split.
  - by apply (process_data_object _ _ _ _ v).
  - apply process_data_heap_only. by rewrite process_data_heap.
Qed.

Lemma process_data_deterministic_witness :
  (process_data 3 example_world).1 =
    (process_data 0 (World {[ 0 := VNone ]} ["earlier output"])).1 ∧
  (process_data 3 (process_data 3 example_world).2).1 =
    (process_data 3 example_world).1.
Proof.
  apply (process_data_deterministic example_world
           (World {[ 0 := VNone ]} ["earlier output"]) 3 0 VNone);
    reflexivity.
Defined.

(** C9: no call changes its argument: [process_data] leaves the whole
    heap as it was (it can only add a line to the output), and
    [validate_data] and [store_data] leave the whole world as it was. *)
Theorem calls_do_not_mutate (l : loc) (w : world) :
  heap (process_data l w).2 = heap w ∧
  (validate_data l w).2 = w ∧
  (store_data l w).2 = w.
Proof.
  split; [apply process_data_heap|].
  split; [apply validate_data_world|done].
Qed.

(** ** The driver *)

(** C5: run as a script, the module builds the sample record with the
    keys [id], [timestamp] and [payload], [process_data] accepts it, and
    the one line printed is [Processing succeeded]. *)
Theorem script_main_succeeds (w : world) :
  let l := fresh (dom (heap w)) in
  let w1 := {| heap := <[l := sample_data]> (heap w); stdout := stdout w |} in
  dom sample_fields = {[ "id"; "timestamp"; "payload" ]} ∧
  alloc sample_data w = (Ok l, w1) ∧
  process_data l w1 = (Ok true, w1) ∧
  script "__main__" w = (Ok tt, printed w1 "Processing succeeded").
Proof.
  intros l w1.
  assert (Hdom : dom sample_fields = {[ "id"; "timestamp"; "payload" ]}).
  { unfold sample_fields. rewrite !dom_insert_L, dom_singleton_L. set_solver. }
  assert (Hp : process_data l w1 = (Ok true, w1)).
  { rewrite (process_data_alloc l w1 (VDict sample_fields)).
    - rewrite required_fields_dict, bool_decide_eq_true_2; [done|].
      rewrite Hdom. set_solver.
    - apply lookup_insert_eq. }
  repeat split; [done..|].
  unfold script. rewrite bool_decide_eq_true_2 by done.
  unfold main, mbind, M_bind.
  change (alloc sample_data w) with (Ok l, w1). cbv beta iota.
  by rewrite Hp.
Qed.

(** ** Beyond dictionaries: what [in] does on the other objects *)

Section Containers.
Implicit Types (w : world) (l : loc) (v : value) (k : string).

Lemma all_in_tests (f : string → bool) ks v :
  (∀ k, contains_value k v = Ok (f k)) → all_in ks v = Ok (forallb f ks).
Proof.
  intros Hf. induction ks as [|k ks IH]; simpl; [done|].
  rewrite Hf, IH. by destruct (f k).
Qed.

Lemma three_tests (f : string → bool) :
  forallb f required_fields = true ↔
  f "id" = true ∧ f "timestamp" = true ∧ f "payload" = true.
Proof.
  simpl. rewrite !andb_true_iff. tauto.
Qed.

Lemma all_in_dict_list_str ks v :
  is_dict_list_str v → ∃ b, all_in ks v = Ok b.
Proof.
  intros [[d ->]|[[xs ->]|[s ->]]]; eexists.
  - by apply (all_in_tests (λ k, bool_decide (is_Some (d !! k)))).
  - by apply (all_in_tests (λ k, existsb (str_eq k) xs)).
  - by apply (all_in_tests (λ k, str_contains k s)).
Qed.

Lemma all_in_none_bool_int_bytes k ks v :
  is_none_bool_int_bytes v → ∃ msg, all_in (k :: ks) v = Raise (Exn TypeError msg).
Proof. intros [->|[[b ->]|[[n ->]|[bs ->]]]]; simpl; eauto. Qed.

Lemma existsb_str_eq k (xs : list value) :
  existsb (str_eq k) xs = true ↔ VStr k ∈ xs.
Proof.
  rewrite existsb_exists. split.
  - intros (x & Hin & Heq). destruct x; simpl in Heq; try done.
    apply bool_decide_eq_true in Heq. subst. by apply list_elem_of_In.
  - intros Hin. exists (VStr k). split; [by apply list_elem_of_In|].
    simpl. by apply bool_decide_eq_true.
Qed.

Lemma append_empty (s : string) : EmptyString +:+ s = s.
Proof. reflexivity. Qed.

Lemma append_String a (s t : string) : String a s +:+ t = String a (s +:+ t).
Proof. reflexivity. Qed.

Lemma prefix_spec (needle hay : string) :
  String.prefix needle hay = true ↔ ∃ after, hay = needle +:+ after.
Proof.
  revert hay. induction needle as [|a needle IH]; intros [|b hay]; simpl.
  - split; [intros _; by exists EmptyString|done].
  - split; [intros _; by exists (String b hay)|done].
  - split; [done|]. intros [after Ha]. by rewrite append_String in Ha.
  - destruct (Ascii.ascii_dec a b) as [->|Hab].
    + rewrite IH. split; intros [after Ha]; exists after;
        rewrite append_String in *; congruence.
    + split; [done|]. intros [after Ha].
      rewrite append_String in Ha. congruence.
Qed.

Lemma str_contains_spec (needle hay : string) :
  str_contains needle hay = true ↔ occurs_in needle hay.
Proof.
  unfold occurs_in. induction hay as [|c hay IH].
  - change (str_contains needle EmptyString)
      with (String.prefix needle EmptyString || false).
    rewrite orb_false_r, prefix_spec. split.
    + intros [after Ha]. by exists EmptyString, after.
    + intros ([|c before] & after & Ha);
        [rewrite append_empty in Ha; eauto|by rewrite append_String in Ha].
  - change (str_contains needle (String c hay))
      with (String.prefix needle (String c hay) || str_contains needle hay).
    rewrite orb_true_iff, prefix_spec, IH. split.
    + intros [[after Ha]|(before & after & Ha)].
      * by exists EmptyString, after.
      * exists (String c before), after. by rewrite append_String, Ha.
    + intros ([|c' before] & after & Ha).
      * left. rewrite append_empty in Ha. eauto.
      * right. rewrite append_String in Ha. exists before, after. congruence.
Qed.
End Containers.

Section Records.
Implicit Types (w : world) (l : loc) (d : gmap string value).

(** Three distinct keys need a record of three entries. *)
Lemma required_keys_size d :
  "id" ∈ dom d ∧ "timestamp" ∈ dom d ∧ "payload" ∈ dom d → 3 ≤ size d.
Proof.
  intros (Hi & Ht & Hp). rewrite <- size_dom.
  change 3 with (size ({[ "id"; "timestamp"; "payload" ]} : gset string)).
  apply subseteq_size. intros k Hk.
  repeat (apply elem_of_union in Hk as [Hk|Hk]);
    apply elem_of_singleton in Hk; by subst.
Qed.

Lemma process_data_dict l w d :
  heap w !! l = Some (VDict d) →
  process_data l w =
    (Ok (bool_decide ("id" ∈ dom d ∧ "timestamp" ∈ dom d ∧ "payload" ∈ dom d)),
     w).
Proof.
  intros Hl. by rewrite (process_data_alloc _ _ _ Hl), required_fields_dict.
Qed.

Lemma main_run w :
  main w = (Ok tt, printed (with_sample w) "Processing succeeded").
Proof.
  unfold main, mbind, M_bind.
  change (alloc sample_data w)
    with (Ok (fresh (dom (heap w))), with_sample w).
  cbv beta iota.
  rewrite (process_data_dict _ _ sample_fields) by apply lookup_insert_eq.
  rewrite bool_decide_eq_true_2; [done|].
  unfold sample_fields. rewrite !dom_insert_L, dom_singleton_L. set_solver.
Qed.
End Records.

(** ** Arguments that are no dictionaries *)

(** X1: [validate_data] has no handler of its own.  On [None], a
    [bool], an [int] or a [bytes] object it raises a [TypeError] and
    leaves the world as it was; on a [dict], a [list] or a [str] it
    returns a boolean and raises nothing. *)
Theorem validate_data_type_error (w : world) (l : loc) (v : value) :
  heap w !! l = Some v →
  (is_none_bool_int_bytes v →
   ∃ msg, validate_data l w = (Raise (Exn TypeError msg), w)) ∧
  (is_dict_list_str v → ∃ b : bool, validate_data l w = (Ok b, w)).
Proof.
  intros Hl. rewrite (validate_data_alloc _ _ _ Hl). split; intros Hv.
  - destruct (all_in_none_bool_int_bytes "id" ["timestamp"; "payload"] v Hv)
      as [msg He].
    exists msg. unfold required_fields. by rewrite He.
  - destruct (all_in_dict_list_str required_fields v Hv) as [b Hb].
    exists b. by rewrite Hb.
Qed.

Lemma validate_data_type_error_witness :
  (∃ msg, validate_data 4 hostile_world = (Raise (Exn TypeError msg), hostile_world)) ∧
  (∃ b : bool, validate_data 1 stray_world = (Ok b, stray_world)).
Proof.
  split.
  - apply (proj1 (validate_data_type_error hostile_world 4
                    (VBytes "id timestamp payload") eq_refl)).
    do 3 right. by exists "id timestamp payload".
  - apply (proj2 (validate_data_type_error stray_world 1
                    (VStr "id,timestamp,payload") eq_refl)).
    do 2 right. by exists "id,timestamp,payload".
Defined.

(** X2: on [None], a [bool], an [int] or a [bytes] object,
    [process_data] returns [False] and adds one line to the output,
    [Error processing data: ] followed by the text of the [TypeError] of
    [validate_data]; on a [dict], a [list] or a [str] it prints nothing
    and leaves the whole world as it was. *)
Theorem process_data_error_line (w : world) (l : loc) (v : value) :
  heap w !! l = Some v →
  (is_none_bool_int_bytes v →
   ∃ msg, validate_data l w = (Raise (Exn TypeError msg), w) ∧
          process_data l w =
            (Ok false, printed w ("Error processing data: " +:+ msg))) ∧
  (is_dict_list_str v → (process_data l w).2 = w).
Proof.
  intros Hl.
  rewrite (process_data_alloc _ _ _ Hl), (validate_data_alloc _ _ _ Hl).
  split; intros Hv.
  - destruct (all_in_none_bool_int_bytes "id" ["timestamp"; "payload"] v Hv)
      as [msg He].
    exists msg. unfold required_fields. by rewrite He.
  - destruct (all_in_dict_list_str required_fields v Hv) as [b Hb].
    by rewrite Hb.
Qed.

Lemma process_data_error_line_witness :
  (∃ msg, validate_data 2 stray_world = (Raise (Exn TypeError msg), stray_world) ∧
          process_data 2 stray_world =
            (Ok false,
             printed stray_world ("Error processing data: " +:+ msg))) ∧
  (process_data 0 stray_world).2 = stray_world.
Proof.
  split.
  - apply (proj1 (process_data_error_line stray_world 2 (VBool true) eq_refl)).
    right; left. by exists true.
  - apply (proj2 (process_data_error_line stray_world 0
             (VList [VStr "payload"; VInt 1; VStr "id"; VStr "timestamp"])
             eq_refl)).
    right; left. eauto.
Defined.

(** X3: [process_data] reports success only for what [validate_data]
    accepted: its result is [True] exactly when the validation returned
    [True], whatever the argument and whatever the validation raised;
    and a [False] of the validation comes out as [False], with nothing
    printed. *)
Theorem process_data_true_only_validated (w : world) (l : loc) (v : value) :
  heap w !! l = Some v →
  ((process_data l w).1 = Ok true ↔ (validate_data l w).1 = Ok true) ∧
  ((validate_data l w).1 = Ok false → process_data l w = (Ok false, w)).
Proof.
  intros Hl.
  rewrite (process_data_alloc _ _ _ Hl), (validate_data_alloc _ _ _ Hl).
  destruct (all_in required_fields v) as [[]|e|] eqn:Hv; simpl;
    [done..| |done].
  split; [|done].
  destruct (is_Exception (exn_cls e)); [|done].
  rewrite process_data_except_run. by destruct (exn_str e).
Qed.

Lemma process_data_true_only_validated_witness :
  ((process_data 3 hostile_world).1 = Ok true ↔
   (validate_data 3 hostile_world).1 = Ok true) ∧
  ((validate_data 3 hostile_world).1 = Ok false →
   process_data 3 hostile_world = (Ok false, hostile_world)).
Proof.
  apply (process_data_true_only_validated hostile_world 3
           (VInstance "Leaving"
              (λ k, if bool_decide (k = "id") then Says true
                    else Throws (Exn SystemExit "0")))).
  reflexivity.
Defined.

(** X4: a list passes the validation: [validate_data] accepts a list
    exactly when the three field names are among its elements, since
    [in] is then an element test. *)
Theorem validate_data_list (w : world) (l : loc) (xs : list value) :
  heap w !! l = Some (VList xs) →
  ∃ b : bool,
    validate_data l w = (Ok b, w) ∧
    (b = true ↔ VStr "id" ∈ xs ∧ VStr "timestamp" ∈ xs ∧ VStr "payload" ∈ xs).
Proof.
  intros Hl. rewrite (validate_data_alloc _ _ _ Hl).
  rewrite (all_in_tests (λ k, existsb (str_eq k) xs)) by done.
  eexists. split; [done|].
  by rewrite three_tests, !existsb_str_eq.
Qed.

Lemma validate_data_list_witness :
  ∃ b : bool,
    validate_data 0 stray_world = (Ok b, stray_world) ∧
    (b = true ↔
       VStr "id" ∈ [VStr "payload"; VInt 1; VStr "id"; VStr "timestamp"] ∧
       VStr "timestamp" ∈ [VStr "payload"; VInt 1; VStr "id"; VStr "timestamp"] ∧
       VStr "payload" ∈ [VStr "payload"; VInt 1; VStr "id"; VStr "timestamp"]).
Proof.
  apply (validate_data_list stray_world 0). reflexivity.
Defined.

(** X5: a string passes the validation as well: [validate_data] accepts
    a string exactly when each of the three field names occurs in it,
    since [in] is then a substring test. *)
Theorem validate_data_str (w : world) (l : loc) (s : string) :
  heap w !! l = Some (VStr s) →
  ∃ b : bool,
    validate_data l w = (Ok b, w) ∧
    (b = true ↔
       occurs_in "id" s ∧ occurs_in "timestamp" s ∧ occurs_in "payload" s).
Proof.
  intros Hl. rewrite (validate_data_alloc _ _ _ Hl).
  rewrite (all_in_tests (λ k, str_contains k s)) by done.
  eexists. split; [done|].
  by rewrite three_tests, !str_contains_spec.
Qed.

Lemma validate_data_str_witness :
  ∃ b : bool,
    validate_data 1 stray_world = (Ok b, stray_world) ∧
    (b = true ↔
       occurs_in "id" "id,timestamp,payload" ∧
       occurs_in "timestamp" "id,timestamp,payload" ∧
       occurs_in "payload" "id,timestamp,payload").
Proof.
  apply (validate_data_str stray_world 1). reflexivity.
Defined.

(** ** Records that grow and shrink *)

(** X6: acceptance is monotone in the key set: once a record is
    accepted, every record that has at least its keys (a field added, a
    value overwritten) is accepted too. *)
Theorem process_data_more_keys (w1 w2 : world) (l1 l2 : loc)
    (d1 d2 : gmap string value) :
  heap w1 !! l1 = Some (VDict d1) →
  heap w2 !! l2 = Some (VDict d2) →
  dom d1 ⊆ dom d2 →
  process_data l1 w1 = (Ok true, w1) →
  process_data l2 w2 = (Ok true, w2).
Proof.
  intros H1 H2 Hsub.
  rewrite (process_data_dict _ _ _ H1), (process_data_dict _ _ _ H2).
  intros Ha. f_equal. f_equal.
  assert (Hd : bool_decide
            ("id" ∈ dom d1 ∧ "timestamp" ∈ dom d1 ∧ "payload" ∈ dom d1) = true)
    by congruence.
  apply bool_decide_eq_true in Hd as (Hi & Ht & Hp).
  apply bool_decide_eq_true. auto.
Qed.

Lemma process_data_more_keys_witness :
  process_data 5 stray_world = (Ok true, stray_world).
Proof.
  apply (process_data_more_keys example_world stray_world 0 5 sample_fields
           (<["note" := VStr "late"]> sample_fields));
    [reflexivity | reflexivity | | reflexivity].
  apply (bool_decide_unpack _). by vm_compute.
Defined.

(** X7: a record from which one of the required fields has been deleted
    is rejected, whatever else it holds. *)
Theorem process_data_without_required_key (w : world) (l : loc)
    (d : gmap string value) (k : string) :
  k ∈ required_fields →
  heap w !! l = Some (VDict (delete k d)) →
  process_data l w = (Ok false, w).
Proof.
  intros Hk Hl. rewrite (process_data_dict _ _ _ Hl).
  rewrite bool_decide_eq_false_2; [done|].
  rewrite dom_delete_L. intros (Hi & Ht & Hp).
  unfold required_fields in Hk.
  repeat (apply elem_of_cons in Hk as [->|Hk]);
    [apply elem_of_difference in Hi as [_ Hn]
    |apply elem_of_difference in Ht as [_ Hn]
    |apply elem_of_difference in Hp as [_ Hn]
    |by apply elem_of_nil in Hk];
    apply Hn; by apply elem_of_singleton.
Qed.

Lemma process_data_without_required_key_witness :
  process_data 6 stray_world = (Ok false, stray_world).
Proof.
  apply (process_data_without_required_key stray_world 6 sample_fields
           "timestamp"); [|reflexivity].
  apply (bool_decide_unpack _). by vm_compute.
Defined.

(** X8: a record of fewer than three entries is rejected: the empty
    record, and any record of one or two fields. *)
Theorem process_data_small_record (w : world) (l : loc) (d : gmap string value) :
  heap w !! l = Some (VDict d) →
  size d < 3 →
  process_data l w = (Ok false, w).
Proof.
  intros Hl Hsize. rewrite (process_data_dict _ _ _ Hl).
  rewrite bool_decide_eq_false_2; [done|].
  intros Hk. apply required_keys_size in Hk. lia.
Qed.

Lemma process_data_small_record_witness :
  process_data 4 stray_world = (Ok false, stray_world).
Proof.
  apply (process_data_small_record stray_world 4 ∅); [reflexivity|].
  vm_compute. lia.
Defined.

(** ** Output *)


(** X10: the module body never raises and keeps every object that was
    there before it ran; when the module is imported rather than run
    (its name is not [__main__]) it prints nothing and builds nothing,
    and when it is run it prints one line. *)
Theorem script_frame (name : string) (w : world) :
  (script name w).1 = Ok tt ∧
  (∀ (l : loc) (v : value),
     heap w !! l = Some v → heap (script name w).2 !! l = Some v) ∧
  (name ≠ "__main__" → (script name w).2 = w) ∧
  (name = "__main__" →
   ∃ line, stdout (script name w).2 = stdout w ++ [line]).
Proof.
  unfold script. case_bool_decide as Hn.
  - rewrite main_run. simpl. repeat split; [|done|by eauto].
    intros l v Hl. rewrite lookup_insert_ne; [done|].
    intros <-. pose proof (is_fresh (dom (heap w))) as Hf.
    apply Hf, elem_of_dom. eauto.
  - repeat split; done.
Qed.
